(** * travel_utils: great-circle distance and travel time

    A shallow embedding of [travel_utils.py] and the properties of its three
    functions [travel_time_s], [haversine] and [distance_and_time].

    Number model.  The Python functions work on [float].  Here a float is
    idealised as a real number of the Standard Library ([R]): every
    arithmetic operation and every function of Python's [math] module is the
    exact real one.  Rounding, overflow, infinities and NaN are outside the
    model, so every statement below is a statement about the formulas the
    code evaluates, over exact real arithmetic.

    Over the reals the term [a] of [haversine] always lies in [0, 1].  On
    floats it is rounded, and the code does not clamp it: where the exact
    value is 0 the rounded one can be below 0, and [math.sqrt] then raises.
    The statements about the result of [haversine] and of
    [distance_and_time] are therefore stated for the calls that return, and
    use only what the domain checks of line 42 guarantee; the statements
    that need the exact value of [a] say so.

    Exceptions.  Python raises where Rocq's real functions are total
    ([math.sqrt] below zero, [math.asin] outside [-1, 1], division by
    zero).  These are kept: a computation returns a [result], either a value
    or the exception raised, and the calls are sequenced in the order of the
    source. *)

From Stdlib Require Import Reals Lra String.

Local Open Scope R_scope.

(** ** Exceptions and results *)

(** The exceptions that the operations used by the module can raise, with
    their message. *)
Inductive exn : Type :=
| ValueError (msg : string)
| ZeroDivisionError (msg : string).

Inductive result (A : Type) : Type :=
| Ok (v : A)
| Raise (e : exn).

Arguments Ok {A} v.
Arguments Raise {A} e.

(** Sequencing: an exception raised by [c] leaves the function at once. *)
Definition bind {A B : Type} (c : result A) (k : A -> result B) : result B :=
  match c with
  | Ok v => k v
  | Raise e => Raise e
  end.

Notation "x <- c ;; k" := (bind c (fun x => k))
  (at level 61, c at next level, right associativity).

(** ** Python's operators on floats *)

(** [x <= y] as a boolean. *)
Definition py_le (x y : R) : bool :=
  if Rle_dec x y then true else false.

(** [x / y]: true division raises on a zero divisor. *)
Definition py_truediv (x y : R) : result R :=
  if Req_dec_T y 0
  then Raise (ZeroDivisionError "float division by zero")
  else Ok (x / y).

(** ** The functions of Python's [math] module that the code calls *)

Module Math.

(** [math.radians(x)] multiplies by the constant pi / 180. *)
Definition radians (x : R) : R := x * (PI / 180).

Definition sin (x : R) : R := Rtrigo_def.sin x.
Definition cos (x : R) : R := Rtrigo_def.cos x.

(** [math.sqrt(x)] raises [ValueError] on a negative argument. *)
Definition sqrt (x : R) : result R :=
  if Rlt_dec x 0
  then Raise (ValueError "math domain error")
  else Ok (R_sqrt.sqrt x).

(** [math.asin(x)] raises [ValueError] outside [-1, 1]. *)
Definition asin (x : R) : result R :=
  if Rlt_dec x (-1) then Raise (ValueError "math domain error")
  else if Rlt_dec 1 x then Raise (ValueError "math domain error")
  else Ok (Ratan.asin x).

End Math.

(** ** travel_utils.py *)

(** [travel_time_s(dist_km, speed_kmh)], lines 4-21. *)
Definition travel_time_s (dist_km speed_kmh : R) : result R :=
  if py_le speed_kmh 0
  then Raise (ValueError "Speed must be positive")
  else
    time_hours <- py_truediv dist_km speed_kmh ;;
    let time_seconds := time_hours * 3600 in
    Ok time_seconds.

(** The value bound to [a] at line 41 of [haversine], as a function of the
    four coordinates already converted to radians (the values that line 36
    rebinds [lat1], [lon1], [lat2], [lon2] to). *)
Definition haversine_a (lat1 lon1 lat2 lon2 : R) : R :=
  let dlon := lon2 - lon1 in
  let dlat := lat2 - lat1 in
  Math.sin (dlat / 2) ^ 2
  + Math.cos lat1 * Math.cos lat2 * Math.sin (dlon / 2) ^ 2.

(** [haversine(lat1, lon1, lat2, lon2)], lines 24-44. *)
Definition haversine (lat1 lon1 lat2 lon2 : R) : result R :=
  let lat1 := Math.radians lat1 in
  let lon1 := Math.radians lon1 in
  let lat2 := Math.radians lat2 in
  let lon2 := Math.radians lon2 in
  let a := haversine_a lat1 lon1 lat2 lon2 in
  root <- Math.sqrt a ;;
  angle <- Math.asin root ;;
  let c := 2 * angle in
  let r := 6371 in
  Ok (c * r).

(** Lines 42-44 of [haversine] as a function of the value of [a]: what the
    function does once [a] is computed.  [haversine] is this function
    applied to [haversine_a] of the converted coordinates. *)
Definition haversine_tail (a : R) : result R :=
  root <- Math.sqrt a ;;
  angle <- Math.asin root ;;
  let c := 2 * angle in
  let r := 6371 in
  Ok (c * r).

(** [distance_and_time(lat1, lon1, lat2, lon2, speed_kmh)], lines 47-61. *)
Definition distance_and_time (lat1 lon1 lat2 lon2 speed_kmh : R)
  : result (R * R) :=
  dist_km <- haversine lat1 lon1 lat2 lon2 ;;
  time_s <- travel_time_s dist_km speed_kmh ;;
  Ok (dist_km, time_s).

(** ** The algorithm as the specification words it

    Section 4.1 of the specification gives five steps; this is the same
    computation written as a plain real-valued formula, with no exception:
    [haversine_term] is the value of [a] after steps 1 to 3, and
    [haversine_steps] the distance after steps 4 and 5. *)
Module Spec.




End Spec.

(** ** Auxiliary facts *)

Lemma py_le_true (x y : R) : x <= y -> py_le x y = true.
Proof. intros H. unfold py_le. destruct (Rle_dec x y); [reflexivity | contradiction]. Qed.

Lemma py_le_false (x y : R) : y < x -> py_le x y = false.
Proof. intros H. unfold py_le. destruct (Rle_dec x y); [lra | reflexivity]. Qed.

Lemma py_truediv_nonzero (x y : R) : y <> 0 -> py_truediv x y = Ok (x / y).
Proof. intros H. unfold py_truediv. destruct (Req_dec_T y 0); [contradiction | reflexivity]. Qed.

Lemma travel_time_s_pos (d s : R) : 0 < s -> travel_time_s d s = Ok (d / s * 3600).
Proof.
  intros Hs. unfold travel_time_s.
  rewrite py_le_false by exact Hs.
  rewrite py_truediv_nonzero by lra.
  reflexivity.
Qed.

Lemma travel_time_s_nonpos (d s : R) :
  s <= 0 -> travel_time_s d s = Raise (ValueError "Speed must be positive").
Proof.
  intros Hs. unfold travel_time_s. rewrite py_le_true by exact Hs. reflexivity.
Qed.

(** ** travel_time_s *)

(** C2: [travel_time_s] raises its ValueError exactly when the speed is at
    most zero, and for a positive speed returns (dist_km / speed_kmh) * 3600,
    whatever the sign of the distance. *)
Theorem travel_time_s_contract (dist_km speed_kmh : R) :
  (speed_kmh <= 0 <->
   travel_time_s dist_km speed_kmh = Raise (ValueError "Speed must be positive"))
  /\ (speed_kmh <= 0 <-> exists e, travel_time_s dist_km speed_kmh = Raise e)
  /\ (0 < speed_kmh ->
      travel_time_s dist_km speed_kmh = Ok (dist_km / speed_kmh * 3600)).
Proof.
  split; [| split].
  - split.
    + apply travel_time_s_nonpos.
    + intros H. destruct (Rle_or_lt speed_kmh 0) as [Hle | Hlt]; [exact Hle |].
      rewrite travel_time_s_pos in H by exact Hlt. discriminate H.
  - split.
    + intros H. eexists. apply travel_time_s_nonpos, H.
    + intros [e H]. destruct (Rle_or_lt speed_kmh 0) as [Hle | Hlt]; [exact Hle |].
      rewrite travel_time_s_pos in H by exact Hlt. discriminate H.
  - apply travel_time_s_pos.
Qed.

Lemma travel_time_s_contract_witness :
  travel_time_s (-5) 2 = Ok (-5 / 2 * 3600).
Proof.
  apply (proj2 (proj2 (travel_time_s_contract (-5) 2))). lra.
Defined.

(** ** The haversine term [a] *)

Section HaversineTerm.

Variables lat1 lon1 lat2 lon2 : R.

(** Half-angle form of the first summand. *)
Lemma sin_half_sq (x : R) : sin (x / 2) ^ 2 = (1 - cos x) / 2.
Proof.
  replace (cos x) with (cos (2 * (x / 2))) by (f_equal; field).
  rewrite cos_2a_sin. field.
Qed.

(** [a] as a mix of two cosines weighted by [s] and [1 - s]. *)
Lemma haversine_a_mix :
  let s := sin ((lon2 - lon1) / 2) ^ 2 in
  haversine_a lat1 lon1 lat2 lon2
  = / 2 - (1 - s) * cos (lat2 - lat1) / 2 + s * cos (lat2 + lat1) / 2.
Proof.
  intros s. unfold haversine_a, Math.sin, Math.cos. fold s.
  rewrite sin_half_sq, cos_minus, cos_plus. field.
Qed.

Lemma haversine_a_bounds : 0 <= haversine_a lat1 lon1 lat2 lon2 <= 1.
Proof.
  rewrite haversine_a_mix.
  pose proof (SIN_bound ((lon2 - lon1) / 2)) as Hs.
  pose proof (COS_bound (lat2 - lat1)) as Hm.
  pose proof (COS_bound (lat2 + lat1)) as Hp.
  set (t := sin ((lon2 - lon1) / 2)) in *.
  set (m := cos (lat2 - lat1)) in *.
  set (p := cos (lat2 + lat1)) in *.
  assert (Hs2 : 0 <= t ^ 2 <= 1) by nra.
  set (s := t ^ 2) in *.
  split; nra.
Qed.

Lemma haversine_a_sym :
  haversine_a lat2 lon2 lat1 lon1 = haversine_a lat1 lon1 lat2 lon2.
Proof.
  unfold haversine_a, Math.sin, Math.cos.
  replace ((lat1 - lat2) / 2) with (- ((lat2 - lat1) / 2)) by field.
  replace ((lon1 - lon2) / 2) with (- ((lon2 - lon1) / 2)) by field.
  rewrite !sin_neg. ring.
Qed.

End HaversineTerm.

(** [math.sqrt] and [math.asin] succeed on their domains. *)
Lemma math_sqrt_ok (x : R) : 0 <= x -> Math.sqrt x = Ok (sqrt x).
Proof.
  intros H. unfold Math.sqrt. destruct (Rlt_dec x 0); [lra | reflexivity].
Qed.

Lemma math_asin_ok (x : R) : -1 <= x <= 1 -> Math.asin x = Ok (asin x).
Proof.
  intros H. unfold Math.asin.
  destruct (Rlt_dec x (-1)); [lra |].
  destruct (Rlt_dec 1 x); [lra | reflexivity].
Qed.

Lemma sqrt_unit (x : R) : 0 <= x <= 1 -> 0 <= sqrt x <= 1.
Proof.
  intros [H0 H1]. split.
  - apply sqrt_pos.
  - rewrite <- sqrt_1. apply sqrt_le_1_alt, H1.
Qed.

(** The arcsine of a number of [0, 1] is an angle of [0, PI / 2]. *)
Lemma asin_unit (x : R) : 0 <= x <= 1 -> 0 <= asin x <= PI / 2.
Proof.
  intros Hx. pose proof (asin_bound x) as [Hlo Hhi]. split; [| exact Hhi].
  destruct (Rle_or_lt 0 (asin x)) as [H | H]; [exact H | exfalso].
  assert (Hsin : sin (asin x) < 0).
  { apply sin_lt_0_var; [| exact H]. pose proof PI_RGT_0. lra. }
  rewrite sin_asin in Hsin by lra. lra.
Qed.

(** The value [haversine] returns, once both domain checks are passed. *)
Lemma haversine_value (lat1 lon1 lat2 lon2 : R) :
  haversine lat1 lon1 lat2 lon2
  = Ok (2 * asin (sqrt (haversine_a (Math.radians lat1) (Math.radians lon1)
                                    (Math.radians lat2) (Math.radians lon2)))
        * 6371).
Proof.
  unfold haversine.
  pose proof (haversine_a_bounds (Math.radians lat1) (Math.radians lon1)
                (Math.radians lat2) (Math.radians lon2)) as Ha.
  rewrite math_sqrt_ok by apply Ha. cbn [bind].
  rewrite math_asin_ok by (pose proof (sqrt_unit _ Ha); lra).
  reflexivity.
Qed.

(** What the domain checks of line 42 give when the function returns:
    [math.sqrt] accepted [a], [math.asin] accepted its root, and the result
    is the radius times twice the arcsine of the root. *)
Lemma haversine_tail_inv (a dist_km : R) :
  haversine_tail a = Ok dist_km ->
  0 <= a /\ sqrt a <= 1 /\ dist_km = 2 * asin (sqrt a) * 6371.
Proof.
  unfold haversine_tail, Math.sqrt, Math.asin. intros H.
  destruct (Rlt_dec a 0) as [Hneg | Hpos]; [discriminate H |].
  cbn [bind] in H.
  destruct (Rlt_dec (sqrt a) (-1)) as [Hlo | Hlo]; [discriminate H |].
  destruct (Rlt_dec 1 (sqrt a)) as [Hhi | Hhi]; [discriminate H |].
  cbn [bind] in H. injection H as <-.
  repeat split; lra.
Qed.


(** Whenever [haversine] returns, the distance is between 0 and half the
    circumference; only the two domain checks are used. *)
Lemma haversine_result_bounds (lat1 lon1 lat2 lon2 dist_km : R) :
  haversine lat1 lon1 lat2 lon2 = Ok dist_km -> 0 <= dist_km <= PI * 6371.
Proof.
  intros H. apply haversine_tail_inv in H. destruct H as [Ha [Hr ->]].
  pose proof (asin_unit _ (conj (sqrt_pos _) Hr)). lra.
Qed.

(** What [distance_and_time] did when it returns a pair. *)
Lemma distance_and_time_inv (lat1 lon1 lat2 lon2 speed_kmh dist_km time_s : R) :
  distance_and_time lat1 lon1 lat2 lon2 speed_kmh = Ok (dist_km, time_s) ->
  haversine lat1 lon1 lat2 lon2 = Ok dist_km
  /\ 0 < speed_kmh
  /\ time_s = dist_km / speed_kmh * 3600.
Proof.
  unfold distance_and_time. intros H.
  destruct (haversine lat1 lon1 lat2 lon2) as [d |]; [| discriminate H].
  cbn [bind] in H.
  destruct (Rle_or_lt speed_kmh 0) as [Hle | Hlt].
  - rewrite travel_time_s_nonpos in H by exact Hle. discriminate H.
  - rewrite travel_time_s_pos in H by exact Hlt. cbn [bind] in H.
    injection H as <- <-. repeat split. exact Hlt.
Qed.


(** The central angle [c] of line 42 is an angle of [0, PI]. *)
Lemma central_angle_bounds (lat1 lon1 lat2 lon2 : R) :
  0 <= 2 * asin (sqrt (haversine_a lat1 lon1 lat2 lon2)) <= PI.
Proof.
  pose proof (asin_unit _ (sqrt_unit _ (haversine_a_bounds lat1 lon1 lat2 lon2))).
  lra.
Qed.

(** Half the circumference of the sphere of radius 6371, in decimals, from
    Machin's series for PI. *)
Lemma half_circumference_decimal : 20015.086 < PI * 6371 < 20015.088.
Proof.
  pose proof (PI_2_3_7_ineq 4) as H.
  cbn [Nat.mul Nat.add sum_f_R0] in H.
  unfold tg_alt, PI_2_3_7_tg, Ratan_seq in H.
  cbn [Nat.mul Nat.add] in H.
  repeat rewrite S_INR in H. rewrite INR_0 in H.
  cbn [pow] in H.
  lra.
Qed.

(** With both points equal the term [a] vanishes. *)
Lemma haversine_a_same (lat lon : R) : haversine_a lat lon lat lon = 0.
Proof.
  unfold haversine_a, Math.sin, Math.cos.
  replace ((lat - lat) / 2) with 0 by field.
  replace ((lon - lon) / 2) with 0 by field.
  rewrite sin_0. ring.
Qed.

(** ** The scenarios of the specification that need no rounding *)

Example travel_time_s_100_50 : travel_time_s 100 50 = Ok 7200.
Proof. rewrite travel_time_s_pos by lra. f_equal. field. Qed.

Example travel_time_s_100_0 :
  travel_time_s 100 0 = Raise (ValueError "Speed must be positive").
Proof. apply travel_time_s_nonpos. lra. Qed.

Example haversine_origin : haversine 0 0 0 0 = Ok 0.
Proof.
  rewrite haversine_value, haversine_a_same, sqrt_0, asin_0. f_equal. ring.
Qed.

(** One degree of longitude on the equator is PI / 180 of the radius, about
    111.19 km. *)
Example haversine_equator_degree :
  haversine 0 0 0 1 = Ok (PI / 180 * 6371)
  /\ 111.19 < PI / 180 * 6371 < 111.20.
Proof.
  pose proof PI_RGT_0 as Hpi. pose proof PI_4 as Hpi4.
  split; [| pose proof half_circumference_decimal; lra].
  rewrite haversine_value. do 2 f_equal.
  unfold haversine_a, Math.radians, Math.sin, Math.cos.
  replace ((0 * (PI / 180) - 0 * (PI / 180)) / 2) with 0 by field.
  replace ((1 * (PI / 180) - 0 * (PI / 180)) / 2) with (PI / 360) by field.
  replace (0 * (PI / 180)) with 0 by ring.
  rewrite sin_0, cos_0.
  replace (0 ^ 2 + 1 * 1 * sin (PI / 360) ^ 2) with (sin (PI / 360) ^ 2) by ring.
  rewrite sqrt_pow2 by (apply sin_ge_0; lra).
  rewrite asin_sin by lra. field.
Qed.

(** ** haversine *)



(** C4: [haversine] does not clamp the term [a].  The function is lines
    42-44 applied to the value of [a] as line 41 computes it, and on any
    value below 0, however small, [math.sqrt] raises [ValueError]: an [a]
    that rounding takes below 0 is an error, not a distance. *)
Theorem haversine_no_clamp (lat1 lon1 lat2 lon2 : R) :
  haversine lat1 lon1 lat2 lon2
  = haversine_tail (haversine_a (Math.radians lat1) (Math.radians lon1)
                                (Math.radians lat2) (Math.radians lon2))
  /\ (forall a : R,
        a < 0 -> haversine_tail a = Raise (ValueError "math domain error")).
Proof.
  split; [reflexivity |].
  intros a Ha. unfold haversine_tail, Math.sqrt.
  destruct (Rlt_dec a 0) as [_ | Hn]; [reflexivity | contradiction].
Qed.

Lemma haversine_no_clamp_witness :
  haversine_tail (-5.421010862427522e-20)
  = Raise (ValueError "math domain error").
Proof.
  apply (proj2 (haversine_no_clamp 91 0 89 180)). lra.
Defined.

(** C5: a distance that [haversine] returns lies between 0 and PI * 6371,
    a bound that is 20015.087 to three decimals. *)
Theorem haversine_range (lat1 lon1 lat2 lon2 dist_km : R) :
  haversine lat1 lon1 lat2 lon2 = Ok dist_km ->
  0 <= dist_km <= PI * 6371
  /\ 20015.086 < PI * 6371 < 20015.088.
Proof.
  intros H. split; [| apply half_circumference_decimal].
  apply (haversine_result_bounds lat1 lon1 lat2 lon2), H.
Qed.

Lemma haversine_range_witness :
  0 <= PI / 180 * 6371 <= PI * 6371
  /\ 20015.086 < PI * 6371 < 20015.088.
Proof.
  apply (haversine_range 0 0 0 1). apply haversine_equator_degree.
Defined.

(** C6: exchanging the two points does not change the result of
    [haversine]. *)
Theorem haversine_symmetric (lat1 lon1 lat2 lon2 : R) :
  haversine lat1 lon1 lat2 lon2 = haversine lat2 lon2 lat1 lon1.
Proof.
  unfold haversine. cbv zeta. rewrite haversine_a_sym. reflexivity.
Qed.

(** C7: the distance from a point to itself is exactly 0. *)
Theorem haversine_same_point (lat lon : R) :
  haversine lat lon lat lon = Ok 0.
Proof.
  rewrite haversine_value, haversine_a_same, sqrt_0, asin_0.
  f_equal. ring.
Qed.

(** C10: adding a full turn of 360 degrees to either longitude does not
    change the result of [haversine]. *)
Theorem haversine_lon_full_turn (lat1 lon1 lat2 lon2 : R) :
  haversine lat1 (lon1 + 360) lat2 lon2 = haversine lat1 lon1 lat2 lon2
  /\ haversine lat1 lon1 lat2 (lon2 + 360) = haversine lat1 lon1 lat2 lon2.
Proof.
  unfold haversine. cbv zeta.
  assert (Hturn : forall lon, Math.radians (lon + 360) = Math.radians lon + 2 * PI).
  { intros lon. unfold Math.radians. field. }
  rewrite !Hturn. unfold haversine_a, Math.sin.
  replace ((Math.radians lon2 - (Math.radians lon1 + 2 * PI)) / 2)
    with (- ((Math.radians lon1 - Math.radians lon2) / 2 + PI)) by field.
  replace ((Math.radians lon2 + 2 * PI - Math.radians lon1) / 2)
    with ((Math.radians lon2 - Math.radians lon1) / 2 + PI) by field.
  rewrite sin_neg, !neg_sin.
  replace ((Math.radians lon1 - Math.radians lon2) / 2)
    with (- ((Math.radians lon2 - Math.radians lon1) / 2)) by field.
  rewrite sin_neg.
  set (t := sin ((Math.radians lon2 - Math.radians lon1) / 2)).
  replace ((- - - t) ^ 2) with (t ^ 2) by ring.
  replace ((- t) ^ 2) with (t ^ 2) by ring.
  split; reflexivity.
Qed.

(** ** distance_and_time *)

(** C3: [distance_and_time] is the composition of the two functions.  The
    distance that [haversine] returns is passed to [travel_time_s]; for a
    positive speed the result is the pair of that distance and that time,
    and for a speed at most zero the exception of [travel_time_s] is the
    exception of [distance_and_time]. *)
Theorem distance_and_time_composition
  (lat1 lon1 lat2 lon2 speed_kmh dist_km : R) :
  haversine lat1 lon1 lat2 lon2 = Ok dist_km ->
  (0 < speed_kmh ->
   exists time_s,
     travel_time_s dist_km speed_kmh = Ok time_s
     /\ distance_and_time lat1 lon1 lat2 lon2 speed_kmh
        = Ok (dist_km, time_s))
  /\ (speed_kmh <= 0 ->
      exists e,
        travel_time_s dist_km speed_kmh = Raise e
        /\ e = ValueError "Speed must be positive"
        /\ distance_and_time lat1 lon1 lat2 lon2 speed_kmh = Raise e).
Proof.
  intros Hd. split; intros Hs.
  - eexists. split; [apply travel_time_s_pos, Hs |].
    unfold distance_and_time. rewrite Hd. cbn [bind].
    rewrite travel_time_s_pos by exact Hs. reflexivity.
  - eexists. split; [apply travel_time_s_nonpos, Hs |]. split; [reflexivity |].
    unfold distance_and_time. rewrite Hd. cbn [bind].
    rewrite travel_time_s_nonpos by exact Hs. reflexivity.
Qed.

Lemma distance_and_time_composition_witness :
  (exists time_s,
     travel_time_s (PI / 180 * 6371) 100 = Ok time_s
     /\ distance_and_time 0 0 0 1 100 = Ok (PI / 180 * 6371, time_s))
  /\ (exists e,
        travel_time_s (PI / 180 * 6371) 0 = Raise e
        /\ e = ValueError "Speed must be positive"
        /\ distance_and_time 0 0 0 1 0 = Raise e).
Proof.
  split.
  - apply (proj1 (distance_and_time_composition 0 0 0 1 100 (PI / 180 * 6371)
                    (proj1 haversine_equator_degree))).
    lra.
  - apply (proj2 (distance_and_time_composition 0 0 0 1 0 (PI / 180 * 6371)
                    (proj1 haversine_equator_degree))).
    lra.
Defined.

(** ** Sign and monotonicity of the time *)

(** C8, as the claim states it, fails: a negative distance is accepted and
    gives a negative time. *)
Lemma travel_time_s_negative_time :
  travel_time_s (-1) 1 = Ok (-3600) /\ ~ 0 <= -3600.
Proof.
  split; [| lra].
  rewrite travel_time_s_pos by lra. f_equal. field.
Qed.

(** C8 (amended): for a distance that is not negative and a positive speed,
    [travel_time_s] returns a time that is not negative; and whenever
    [distance_and_time] returns a pair, its second component is not
    negative. *)
Theorem time_nonnegative :
  (forall dist_km speed_kmh : R,
     0 <= dist_km -> 0 < speed_kmh ->
     exists time_s, travel_time_s dist_km speed_kmh = Ok time_s /\ 0 <= time_s)
  /\ (forall lat1 lon1 lat2 lon2 speed_kmh dist_km time_s : R,
        distance_and_time lat1 lon1 lat2 lon2 speed_kmh = Ok (dist_km, time_s) ->
        0 <= time_s).
Proof.
  split.
  - intros d s Hd Hs. eexists. split; [apply travel_time_s_pos, Hs |].
    assert (0 < / s) by (apply Rinv_0_lt_compat, Hs).
    unfold Rdiv. nra.
  - intros lat1 lon1 lat2 lon2 s d t H.
    pose proof (central_angle_bounds (Math.radians lat1) (Math.radians lon1)
                  (Math.radians lat2) (Math.radians lon2)) as [Hlo _].
    unfold distance_and_time in H. rewrite haversine_value in H.
    cbn [bind] in H.
    destruct (Rle_or_lt s 0) as [Hle | Hlt].
    + rewrite travel_time_s_nonpos in H by exact Hle. discriminate H.
    + rewrite travel_time_s_pos in H by exact Hlt. cbn [bind] in H.
      injection H as <- <-.
      assert (0 < / s) by (apply Rinv_0_lt_compat, Hlt).
      unfold Rdiv. nra.
Qed.

Lemma time_nonnegative_witness :
  (exists time_s, travel_time_s 100 50 = Ok time_s /\ 0 <= time_s)
  /\ 0 <= 0 / 100 * 3600.
Proof.
  split.
  - apply (proj1 time_nonnegative 100 50); lra.
  - apply (proj2 time_nonnegative 0 0 0 0 100 0 (0 / 100 * 3600)).
    unfold distance_and_time. rewrite haversine_origin. cbn [bind].
    rewrite travel_time_s_pos by lra. reflexivity.
Defined.

(** C9: for a distance that is not negative, a higher positive speed never
    gives a longer time. *)
Theorem travel_time_s_antitone (dist_km s1 s2 : R) :
  0 <= dist_km -> 0 < s1 <= s2 ->
  exists t1 t2,
    travel_time_s dist_km s1 = Ok t1
    /\ travel_time_s dist_km s2 = Ok t2
    /\ t2 <= t1.
Proof.
  intros Hd [H1 H12].
  exists (dist_km / s1 * 3600), (dist_km / s2 * 3600).
  split; [apply travel_time_s_pos, H1 |].
  split; [apply travel_time_s_pos; lra |].
  assert (Hinv : / s2 <= / s1) by (apply Rinv_le_contravar; assumption).
  unfold Rdiv. nra.
Qed.

Lemma travel_time_s_antitone_witness :
  exists t1 t2,
    travel_time_s 100 50 = Ok t1 /\ travel_time_s 100 80 = Ok t2 /\ t2 <= t1.
Proof.
  apply (travel_time_s_antitone 100 50 80); lra.
Defined.

(** ** Further properties of travel_time_s *)

(** X1: over exact real arithmetic, at a fixed positive speed the time is
    linear in the distance: the time of a sum of two distances is the sum of
    their times, and scaling a distance by a factor scales its time by the
    same factor. *)
Theorem travel_time_s_linear (d1 d2 k speed_kmh : R) :
  0 < speed_kmh ->
  exists t1 t2,
    travel_time_s d1 speed_kmh = Ok t1
    /\ travel_time_s d2 speed_kmh = Ok t2
    /\ travel_time_s (d1 + d2) speed_kmh = Ok (t1 + t2)
    /\ travel_time_s (k * d1) speed_kmh = Ok (k * t1).
Proof.
  intros Hs. do 2 eexists.
  rewrite !travel_time_s_pos by exact Hs.
  repeat split; f_equal; field; lra.
Qed.

Lemma travel_time_s_linear_witness :
  exists t1 t2,
    travel_time_s 30 60 = Ok t1
    /\ travel_time_s 90 60 = Ok t2
    /\ travel_time_s (30 + 90) 60 = Ok (t1 + t2)
    /\ travel_time_s (2 * 30) 60 = Ok (2 * t1).
Proof.
  apply (travel_time_s_linear 30 90 2 60). lra.
Defined.

(** X2: at a fixed positive speed a longer distance never takes less time:
    for two distances in order, both calls return and the times are in the
    same order. *)
Theorem travel_time_s_monotone_in_distance (d1 d2 speed_kmh : R) :
  0 < speed_kmh -> d1 <= d2 ->
  exists t1 t2,
    travel_time_s d1 speed_kmh = Ok t1
    /\ travel_time_s d2 speed_kmh = Ok t2
    /\ t1 <= t2.
Proof.
  intros Hs Hd. do 2 eexists.
  rewrite !travel_time_s_pos by exact Hs.
  split; [reflexivity |]. split; [reflexivity |].
  assert (Hinv : 0 < / speed_kmh) by (apply Rinv_0_lt_compat, Hs).
  unfold Rdiv. nra.
Qed.

Lemma travel_time_s_monotone_in_distance_witness :
  exists t1 t2,
    travel_time_s (-3) 40 = Ok t1
    /\ travel_time_s 12 40 = Ok t2
    /\ t1 <= t2.
Proof.
  apply (travel_time_s_monotone_in_distance (-3) 12 40); lra.
Defined.

(** X3: over exact real arithmetic the distance is recovered from the
    time: whenever [travel_time_s] returns a time, the speed is positive and
    the time multiplied by the speed and divided by 3600 is the distance
    that was given. *)
Theorem travel_time_s_inverse (dist_km speed_kmh time_s : R) :
  travel_time_s dist_km speed_kmh = Ok time_s ->
  0 < speed_kmh /\ dist_km = time_s * speed_kmh / 3600.
Proof.
  intros H. destruct (Rle_or_lt speed_kmh 0) as [Hle | Hlt].
  - rewrite travel_time_s_nonpos in H by exact Hle. discriminate H.
  - rewrite travel_time_s_pos in H by exact Hlt. injection H as <-.
    split; [exact Hlt | field; lra].
Qed.

Lemma travel_time_s_inverse_witness :
  0 < 50 /\ 100 = 7200 * 50 / 3600.
Proof.
  apply (travel_time_s_inverse 100 50 7200). exact travel_time_s_100_50.
Defined.

(** X4: over exact real arithmetic the time is inversely proportional to
    the speed: multiplying a positive speed by a positive factor divides the
    time by that factor. *)
Theorem travel_time_s_speed_scaling (dist_km speed_kmh k : R) :
  0 < speed_kmh -> 0 < k ->
  exists time_s,
    travel_time_s dist_km speed_kmh = Ok time_s
    /\ travel_time_s dist_km (k * speed_kmh) = Ok (time_s / k).
Proof.
  intros Hs Hk. eexists.
  assert (Hks : 0 < k * speed_kmh) by (apply Rmult_lt_0_compat; assumption).
  rewrite !travel_time_s_pos by assumption.
  split; [reflexivity |]. f_equal. field. lra.
Qed.

Lemma travel_time_s_speed_scaling_witness :
  exists time_s,
    travel_time_s 100 50 = Ok time_s
    /\ travel_time_s 100 (2 * 50) = Ok (time_s / 2).
Proof.
  apply (travel_time_s_speed_scaling 100 50 2); lra.
Defined.

(** X5: at a positive speed the time never has the sign opposite to the
    distance: a distance that is not negative gives a time that is not
    negative, and a distance that is not positive, which the function
    accepts as well, gives a time that is not positive. *)
Theorem travel_time_s_sign (dist_km speed_kmh : R) :
  0 < speed_kmh ->
  exists time_s,
    travel_time_s dist_km speed_kmh = Ok time_s
    /\ (0 <= dist_km -> 0 <= time_s)
    /\ (dist_km <= 0 -> time_s <= 0).
Proof.
  intros Hs. eexists. split; [apply travel_time_s_pos, Hs |].
  assert (Hinv : 0 < / speed_kmh) by (apply Rinv_0_lt_compat, Hs).
  unfold Rdiv. split; intros Hd; nra.
Qed.

Lemma travel_time_s_sign_witness :
  exists time_s,
    travel_time_s (-7) 35 = Ok time_s
    /\ (0 <= -7 -> 0 <= time_s)
    /\ (-7 <= 0 -> time_s <= 0).
Proof.
  apply (travel_time_s_sign (-7) 35). lra.
Defined.

(** ** Further properties of haversine *)

(** The cosine of the central angle [c] of line 42, in terms of [a]. *)
Lemma central_angle_cos (a : R) :
  0 <= a <= 1 -> cos (2 * asin (sqrt a)) = 1 - 2 * a.
Proof.
  intros Ha. pose proof (sqrt_unit a Ha) as Hr.
  rewrite cos_2a_sin, sin_asin by lra.
  rewrite Rmult_assoc, sqrt_sqrt by apply Ha. reflexivity.
Qed.

(** [1 - 2 a] is the scalar product of the two unit vectors of the points. *)
Lemma haversine_a_cosines (lat1 lon1 lat2 lon2 : R) :
  1 - 2 * haversine_a lat1 lon1 lat2 lon2
  = sin lat1 * sin lat2 + cos lat1 * cos lat2 * cos (lon2 - lon1).
Proof.
  unfold haversine_a, Math.sin, Math.cos.
  rewrite !sin_half_sq, cos_minus. field.
Qed.

(** The arcsine undoes the sine of a squared-and-rooted half angle, up to
    its sign. *)
Lemma asin_sqrt_sin_sq (x : R) :
  - (PI / 2) <= x <= PI / 2 -> asin (sqrt (sin x ^ 2)) = Rabs x.
Proof.
  intros Hx. pose proof PI_RGT_0 as Hpi.
  rewrite <- Rsqr_pow2, sqrt_Rsqr_abs.
  destruct (Rle_or_lt 0 x) as [Hpos | Hneg].
  - rewrite (Rabs_pos_eq x) by exact Hpos.
    rewrite Rabs_pos_eq by (apply sin_ge_0; lra).
    apply asin_sin. lra.
  - rewrite (Rabs_left x) by exact Hneg.
    assert (Hs : sin x < 0) by (apply sin_lt_0_var; lra).
    rewrite Rabs_left by exact Hs.
    rewrite <- sin_neg. apply asin_sin. lra.
Qed.

(** Within one half turn of zero the sine vanishes only at zero. *)
Lemma sin_zero_small (x : R) : - PI < x < PI -> sin x = 0 -> x = 0.
Proof.
  intros [Hlo Hhi] Hs.
  destruct (Rtotal_order x 0) as [Hneg | [Hz | Hpos]]; [| exact Hz |].
  - pose proof (sin_lt_0_var x Hlo Hneg). lra.
  - pose proof (sin_gt_0 x Hpos Hhi). lra.
Qed.

(** X6: the distance [haversine] returns is the radius 6371 times the angle
    between the two points seen from the centre of the sphere: the quotient
    of the distance by 6371 is an angle of [0, PI] whose cosine is
    sin(lat1) sin(lat2) + cos(lat1) cos(lat2) cos(lon2 - lon1), the spherical
    law of cosines, on the coordinates in radians. *)
Theorem haversine_law_of_cosines (lat1 lon1 lat2 lon2 : R) :
  exists dist_km,
    haversine lat1 lon1 lat2 lon2 = Ok dist_km
    /\ 0 <= dist_km / 6371 <= PI
    /\ cos (dist_km / 6371)
       = sin (Math.radians lat1) * sin (Math.radians lat2)
         + cos (Math.radians lat1) * cos (Math.radians lat2)
           * cos (Math.radians lon2 - Math.radians lon1).
Proof.
  eexists. split; [apply haversine_value |].
  set (a := haversine_a _ _ _ _).
  replace (2 * asin (sqrt a) * 6371 / 6371) with (2 * asin (sqrt a)) by field.
  split; [apply central_angle_bounds |].
  rewrite central_angle_cos by apply haversine_a_bounds.
  apply haversine_a_cosines.
Qed.

(** X7: over exact real arithmetic, along a meridian the distance is the
    arc length: for two points of the same longitude whose latitudes differ
    by at most 180 degrees, [haversine] returns 6371 times the absolute
    difference of the latitudes in radians. *)
Theorem haversine_meridian_arc (lat1 lat2 lon : R) :
  -180 <= lat2 - lat1 <= 180 ->
  haversine lat1 lon lat2 lon = Ok (Rabs (Math.radians (lat2 - lat1)) * 6371).
Proof.
  intros Hd. pose proof PI_RGT_0 as Hpi.
  rewrite haversine_value. f_equal. f_equal.
  unfold haversine_a, Math.sin, Math.cos.
  replace ((Math.radians lon - Math.radians lon) / 2) with 0 by field.
  rewrite sin_0.
  replace ((Math.radians lat2 - Math.radians lat1) / 2)
    with (Math.radians (lat2 - lat1) / 2) by (unfold Math.radians; field).
  set (x := Math.radians (lat2 - lat1) / 2).
  replace (sin x ^ 2 + cos (Math.radians lat1) * cos (Math.radians lat2) * 0 ^ 2)
    with (sin x ^ 2) by ring.
  assert (Hx : - (PI / 2) <= x <= PI / 2).
  { unfold x, Math.radians. split; nra. }
  rewrite asin_sqrt_sin_sq by exact Hx.
  replace (Math.radians (lat2 - lat1)) with (2 * x) by (unfold x; field).
  rewrite Rabs_mult, (Rabs_pos_eq 2) by lra. reflexivity.
Qed.

Lemma haversine_meridian_arc_witness :
  haversine (-10) 25 35 25 = Ok (Rabs (Math.radians (35 - -10)) * 6371).
Proof.
  apply (haversine_meridian_arc (-10) 35 25). lra.
Defined.

(** X8: over exact real arithmetic, along the equator the distance is the
    arc length: for two points of latitude 0 whose longitudes differ by at
    most 180 degrees, [haversine] returns 6371 times the absolute difference
    of the longitudes in radians. *)
Theorem haversine_equator_arc (lon1 lon2 : R) :
  -180 <= lon2 - lon1 <= 180 ->
  haversine 0 lon1 0 lon2 = Ok (Rabs (Math.radians (lon2 - lon1)) * 6371).
Proof.
  intros Hd. pose proof PI_RGT_0 as Hpi.
  rewrite haversine_value. f_equal. f_equal.
  unfold haversine_a, Math.sin, Math.cos.
  replace (Math.radians 0) with 0 by (unfold Math.radians; ring).
  replace ((0 - 0) / 2) with 0 by field.
  rewrite sin_0, cos_0.
  replace ((Math.radians lon2 - Math.radians lon1) / 2)
    with (Math.radians (lon2 - lon1) / 2) by (unfold Math.radians; field).
  set (x := Math.radians (lon2 - lon1) / 2).
  replace (0 ^ 2 + 1 * 1 * sin x ^ 2) with (sin x ^ 2) by ring.
  assert (Hx : - (PI / 2) <= x <= PI / 2).
  { unfold x, Math.radians. split; nra. }
  rewrite asin_sqrt_sin_sq by exact Hx.
  replace (Math.radians (lon2 - lon1)) with (2 * x) by (unfold x; field).
  rewrite Rabs_mult, (Rabs_pos_eq 2) by lra. reflexivity.
Qed.

Lemma haversine_equator_arc_witness :
  haversine 0 170 0 20 = Ok (Rabs (Math.radians (20 - 170)) * 6371).
Proof.
  apply (haversine_equator_arc 170 20). lra.
Defined.

(** X9: over exact real arithmetic the bound PI * 6371 is reached: for
    every point, the distance to its antipode, the point of opposite
    latitude with the longitude moved by 180 degrees either way, is exactly
    PI * 6371. *)
Theorem haversine_antipode (lat lon : R) :
  haversine lat lon (- lat) (lon + 180) = Ok (PI * 6371)
  /\ haversine lat lon (- lat) (lon - 180) = Ok (PI * 6371).
Proof.
  assert (Ha : forall lon', sin ((Math.radians lon' - Math.radians lon) / 2) ^ 2 = 1 ->
                 haversine lat lon (- lat) lon' = Ok (PI * 6371)).
  { intros lon' Hs. rewrite haversine_value. f_equal.
    unfold haversine_a, Math.sin, Math.cos. rewrite Hs.
    replace ((Math.radians (- lat) - Math.radians lat) / 2)
      with (- Math.radians lat) by (unfold Math.radians; field).
    replace (Math.radians (- lat)) with (- Math.radians lat)
      by (unfold Math.radians; ring).
    rewrite sin_neg, cos_neg.
    pose proof (sin2_cos2 (Math.radians lat)) as Hsc. unfold Rsqr in Hsc.
    replace ((- sin (Math.radians lat)) ^ 2
             + cos (Math.radians lat) * cos (Math.radians lat) * 1)
      with 1 by nra.
    rewrite sqrt_1, asin_1. field. }
  split; apply Ha.
  - replace ((Math.radians (lon + 180) - Math.radians lon) / 2)
      with (PI / 2) by (unfold Math.radians; field).
    rewrite sin_PI2. ring.
  - replace ((Math.radians (lon - 180) - Math.radians lon) / 2)
      with (- (PI / 2)) by (unfold Math.radians; field).
    rewrite sin_neg, sin_PI2. ring.
Qed.

(** A vanishing central angle means a vanishing term [a]. *)
Lemma central_angle_zero (a : R) :
  0 <= a <= 1 -> 2 * asin (sqrt a) * 6371 = 0 -> a = 0.
Proof.
  intros Ha H. pose proof (sqrt_unit a Ha) as Hr.
  assert (Hz : asin (sqrt a) = 0) by lra.
  apply sqrt_eq_0; [apply Ha |].
  rewrite <- (sin_asin (sqrt a)) by lra.
  rewrite Hz. apply sin_0.
Qed.

(** On a closed quarter turn around zero the cosine vanishes only at the
    two ends. *)
Lemma cos_zero_quarter (x : R) :
  - (PI / 2) <= x <= PI / 2 -> cos x = 0 -> x = PI / 2 \/ x = - (PI / 2).
Proof.
  intros [Hlo Hhi] Hc.
  destruct Hhi as [Hlt | Heq]; [| left; exact Heq].
  destruct Hlo as [Hgt | Heq]; [| right; symmetry; exact Heq].
  pose proof (cos_gt_0 x Hgt Hlt). lra.
Qed.

(** X10: over exact real arithmetic, for latitudes of [-90, 90] and
    longitudes less than a full turn apart, the distance is 0 only between a
    point and itself: [haversine] returns 0 exactly when the latitudes are
    equal and either the longitudes are equal or the common latitude is a
    pole, 90 or -90, where every longitude names the same point. *)
Theorem haversine_zero_iff (lat1 lon1 lat2 lon2 : R) :
  -90 <= lat1 <= 90 -> -90 <= lat2 <= 90 -> -360 < lon2 - lon1 < 360 ->
  (haversine lat1 lon1 lat2 lon2 = Ok 0
   <-> lat1 = lat2 /\ (lon1 = lon2 \/ lat1 = 90 \/ lat1 = -90)).
Proof.
  intros H1 H2 Hl. pose proof PI_RGT_0 as Hpi.
  rewrite haversine_value. split.
  - intros H. injection H as H.
    apply central_angle_zero in H; [| apply haversine_a_bounds].
    unfold haversine_a, Math.sin, Math.cos in H.
    assert (Hc1 : 0 <= cos (Math.radians lat1))
      by (apply cos_ge_0; unfold Math.radians; nra).
    assert (Hc2 : 0 <= cos (Math.radians lat2))
      by (apply cos_ge_0; unfold Math.radians; nra).
    set (u := (Math.radians lat2 - Math.radians lat1) / 2) in *.
    set (v := (Math.radians lon2 - Math.radians lon1) / 2) in *.
    assert (Hsu : 0 <= sin u ^ 2) by apply pow2_ge_0.
    assert (Hsv : 0 <= sin v ^ 2) by apply pow2_ge_0.
    assert (Hcc : 0 <= cos (Math.radians lat1) * cos (Math.radians lat2) * sin v ^ 2).
    { apply Rmult_le_pos; [apply Rmult_le_pos; assumption | exact Hsv]. }
    assert (Hu2 : sin u ^ 2 = 0) by lra.
    assert (Hu : sin u = 0) by nra.
    apply sin_zero_small in Hu; [| unfold u, Math.radians; split; nra].
    assert (Hlat : lat1 = lat2) by (unfold u, Math.radians in Hu; nra).
    split; [exact Hlat |]. subst lat2.
    assert (Hprod2 : (cos (Math.radians lat1) * sin v) ^ 2 = 0) by nra.
    assert (Hprod : cos (Math.radians lat1) * sin v = 0) by nra.
    apply Rmult_integral in Hprod. destruct Hprod as [Hc | Hs].
    + right. apply cos_zero_quarter in Hc; [| unfold Math.radians; split; nra].
      unfold Math.radians in Hc. destruct Hc as [Hc | Hc]; [left | right]; nra.
    + left. apply sin_zero_small in Hs; [| unfold v, Math.radians; split; nra].
      unfold v, Math.radians in Hs. nra.
  - intros [Hlat Hcase]. subst lat2. f_equal.
    assert (Ha : haversine_a (Math.radians lat1) (Math.radians lon1)
                   (Math.radians lat1) (Math.radians lon2) = 0).
    { destruct Hcase as [Hlon | Hpole].
      - subst lon2. apply haversine_a_same.
      - unfold haversine_a, Math.sin, Math.cos.
        replace ((Math.radians lat1 - Math.radians lat1) / 2) with 0 by field.
        rewrite sin_0.
        assert (Hc : cos (Math.radians lat1) = 0).
        { destruct Hpole as [-> | ->].
          - replace (Math.radians 90) with (PI / 2) by (unfold Math.radians; field).
            apply cos_PI2.
          - replace (Math.radians (-90)) with (- (PI / 2))
              by (unfold Math.radians; field).
            rewrite cos_neg. apply cos_PI2. }
        rewrite Hc. ring. }
    rewrite Ha, sqrt_0, asin_0. ring.
Qed.

Lemma haversine_zero_iff_witness :
  haversine 30 10 45 10 = Ok 0
  <-> 30 = 45 /\ (10 = 10 \/ 30 = 90 \/ 30 = -90).
Proof.
  apply (haversine_zero_iff 30 10 45 10); lra.
Defined.

(** X11: mirroring both points does not change the result of [haversine]:
    it is the same when both longitudes change sign, and the same when both
    latitudes change sign. *)
Theorem haversine_mirror (lat1 lon1 lat2 lon2 : R) :
  haversine lat1 (- lon1) lat2 (- lon2) = haversine lat1 lon1 lat2 lon2
  /\ haversine (- lat1) lon1 (- lat2) lon2 = haversine lat1 lon1 lat2 lon2.
Proof.
  unfold haversine. cbv zeta.
  assert (Hopp : forall x, Math.radians (- x) = - Math.radians x)
    by (intros x; unfold Math.radians; ring).
  split.
  - replace (haversine_a (Math.radians lat1) (Math.radians (- lon1))
               (Math.radians lat2) (Math.radians (- lon2)))
      with (haversine_a (Math.radians lat1) (Math.radians lon1)
              (Math.radians lat2) (Math.radians lon2)); [reflexivity |].
    unfold haversine_a, Math.sin. rewrite !Hopp.
    replace ((- Math.radians lon2 - - Math.radians lon1) / 2)
      with (- ((Math.radians lon2 - Math.radians lon1) / 2)) by field.
    rewrite sin_neg. ring.
  - replace (haversine_a (Math.radians (- lat1)) (Math.radians lon1)
               (Math.radians (- lat2)) (Math.radians lon2))
      with (haversine_a (Math.radians lat1) (Math.radians lon1)
              (Math.radians lat2) (Math.radians lon2)); [reflexivity |].
    unfold haversine_a, Math.sin, Math.cos. rewrite !Hopp.
    replace ((- Math.radians lat2 - - Math.radians lat1) / 2)
      with (- ((Math.radians lat2 - Math.radians lat1) / 2)) by field.
    rewrite sin_neg, !cos_neg. ring.
Qed.

(** X19: over exact real arithmetic the result of [haversine] depends on
    the longitudes through their difference only: it is unchanged when both
    longitudes are moved by the same amount. *)
Theorem haversine_lon_common_shift (lat1 lon1 lat2 lon2 shift : R) :
  haversine lat1 (lon1 + shift) lat2 (lon2 + shift)
  = haversine lat1 lon1 lat2 lon2.
Proof.
  unfold haversine. cbv zeta.
  replace (haversine_a (Math.radians lat1) (Math.radians (lon1 + shift))
             (Math.radians lat2) (Math.radians (lon2 + shift)))
    with (haversine_a (Math.radians lat1) (Math.radians lon1)
            (Math.radians lat2) (Math.radians lon2)); [reflexivity |].
  unfold haversine_a. cbv zeta.
  replace (Math.radians (lon2 + shift) - Math.radians (lon1 + shift))
    with (Math.radians lon2 - Math.radians lon1)
    by (unfold Math.radians; ring).
  reflexivity.
Qed.

(** X12: adding a full turn of 360 degrees to either latitude does not
    change the result of [haversine]. *)
Theorem haversine_lat_full_turn (lat1 lon1 lat2 lon2 : R) :
  haversine (lat1 + 360) lon1 lat2 lon2 = haversine lat1 lon1 lat2 lon2
  /\ haversine lat1 lon1 (lat2 + 360) lon2 = haversine lat1 lon1 lat2 lon2.
Proof.
  unfold haversine. cbv zeta.
  assert (Hturn : forall lat, Math.radians (lat + 360) = Math.radians lat + 2 * PI)
    by (intros lat; unfold Math.radians; field).
  assert (Hcos : forall x, cos (x + 2 * PI) = cos x).
  { intros x. rewrite cos_plus, cos_2PI, sin_2PI. ring. }
  rewrite !Hturn. unfold haversine_a, Math.sin, Math.cos. rewrite !Hcos.
  replace ((Math.radians lat2 - (Math.radians lat1 + 2 * PI)) / 2)
    with (- ((Math.radians lat1 - Math.radians lat2) / 2 + PI)) by field.
  replace ((Math.radians lat2 + 2 * PI - Math.radians lat1) / 2)
    with ((Math.radians lat2 - Math.radians lat1) / 2 + PI) by field.
  rewrite sin_neg, !neg_sin.
  replace ((Math.radians lat1 - Math.radians lat2) / 2)
    with (- ((Math.radians lat2 - Math.radians lat1) / 2)) by field.
  rewrite sin_neg.
  set (t := sin ((Math.radians lat2 - Math.radians lat1) / 2)).
  replace ((- - - t) ^ 2) with (t ^ 2) by ring.
  replace ((- t) ^ 2) with (t ^ 2) by ring.
  split; reflexivity.
Qed.

(** ** The triangle inequality *)

(** The Gram determinant of three unit vectors is the square of their
    determinant, so it is not negative. *)
Lemma gram_unit_nonneg (x1 y1 z1 x2 y2 z2 x3 y3 z3 : R) :
  x1 * x1 + y1 * y1 + z1 * z1 = 1 ->
  x2 * x2 + y2 * y2 + z2 * z2 = 1 ->
  x3 * x3 + y3 * y3 + z3 * z3 = 1 ->
  let p := x1 * x2 + y1 * y2 + z1 * z2 in
  let q := x2 * x3 + y2 * y3 + z2 * z3 in
  let r := x1 * x3 + y1 * y3 + z1 * z3 in
  0 <= 1 - p * p - q * q - r * r + 2 * p * q * r.
Proof.
  intros N1 N2 N3 p q r.
  set (det := x1 * (y2 * z3 - z2 * y3) - y1 * (x2 * z3 - z2 * x3)
              + z1 * (x2 * y3 - y2 * x3)).
  assert (E : (x1 * x1 + y1 * y1 + z1 * z1) * (x2 * x2 + y2 * y2 + z2 * z2)
              * (x3 * x3 + y3 * y3 + z3 * z3)
              - (x1 * x1 + y1 * y1 + z1 * z1) * (q * q)
              - (x2 * x2 + y2 * y2 + z2 * z2) * (r * r)
              - (x3 * x3 + y3 * y3 + z3 * z3) * (p * p)
              + 2 * p * q * r = det * det).
  { unfold p, q, r, det. ring. }
  rewrite N1, N2, N3 in E.
  pose proof (Rle_0_sqr det) as Hd. unfold Rsqr in Hd. lra.
Qed.

(** Three angles of [0, PI] whose cosines have a Gram determinant that is
    not negative satisfy the triangle inequality. *)
Lemma angle_triangle (alpha beta gamma : R) :
  0 <= alpha <= PI -> 0 <= beta <= PI -> 0 <= gamma <= PI ->
  0 <= 1 - cos alpha * cos alpha - cos beta * cos beta - cos gamma * cos gamma
       + 2 * cos alpha * cos beta * cos gamma ->
  gamma <= alpha + beta.
Proof.
  intros Ha Hb Hc HG.
  destruct (Rle_or_lt PI (alpha + beta)) as [Hbig | Hsmall]; [lra |].
  apply cos_decr_0; try lra.
  rewrite cos_plus.
  pose proof (sin_ge_0 alpha (proj1 Ha) (proj2 Ha)) as Hsa.
  pose proof (sin_ge_0 beta (proj1 Hb) (proj2 Hb)) as Hsb.
  pose proof (sin2_cos2 alpha) as Ea. pose proof (sin2_cos2 beta) as Eb.
  unfold Rsqr in Ea, Eb.
  set (p := cos alpha) in *. set (q := cos beta) in *. set (r := cos gamma) in *.
  set (sa := sin alpha) in *. set (sb := sin beta) in *.
  destruct (Rle_or_lt (p * q - r) (sa * sb)) as [Hle | Hgt]; [lra | exfalso].
  assert (Hss : 0 <= sa * sb) by (apply Rmult_le_pos; assumption).
  assert (Hsq : (sa * sb) * (sa * sb) < (p * q - r) * (p * q - r)) by nra.
  assert (Hid : (sa * sb) * (sa * sb) = (1 - p * p) * (1 - q * q)).
  { replace (1 - p * p) with (sa * sa) by lra.
    replace (1 - q * q) with (sb * sb) by lra. ring. }
  nra.
Qed.

(** The cosine of the central angle is the scalar product of the unit
    vectors (cos lat cos lon, cos lat sin lon, sin lat) of the two points. *)
Lemma central_angle_dot (lat1 lon1 lat2 lon2 : R) :
  cos (2 * asin (sqrt (haversine_a lat1 lon1 lat2 lon2)))
  = (cos lat1 * cos lon1) * (cos lat2 * cos lon2)
    + (cos lat1 * sin lon1) * (cos lat2 * sin lon2)
    + sin lat1 * sin lat2.
Proof.
  rewrite central_angle_cos by apply haversine_a_bounds.
  rewrite haversine_a_cosines, cos_minus. ring.
Qed.

Lemma unit_vector_norm (lat lon : R) :
  (cos lat * cos lon) * (cos lat * cos lon)
  + (cos lat * sin lon) * (cos lat * sin lon)
  + sin lat * sin lat = 1.
Proof.
  pose proof (sin2_cos2 lat) as Hl. pose proof (sin2_cos2 lon) as Ho.
  unfold Rsqr in Hl, Ho.
  replace ((cos lat * cos lon) * (cos lat * cos lon)
           + (cos lat * sin lon) * (cos lat * sin lon) + sin lat * sin lat)
    with (cos lat * cos lat * (sin lon * sin lon + cos lon * cos lon)
          + sin lat * sin lat) by ring.
  rewrite Ho. lra.
Qed.

(** X13: over exact real arithmetic [haversine] satisfies the triangle
    inequality: for any three points, the distance from the first to the
    third is at most the distance from the first to the second plus the
    distance from the second to the third. *)
Theorem haversine_triangle (lat1 lon1 lat2 lon2 lat3 lon3 : R) :
  exists d12 d23 d13,
    haversine lat1 lon1 lat2 lon2 = Ok d12
    /\ haversine lat2 lon2 lat3 lon3 = Ok d23
    /\ haversine lat1 lon1 lat3 lon3 = Ok d13
    /\ d13 <= d12 + d23.
Proof.
  do 3 eexists. rewrite !haversine_value.
  split; [reflexivity |]. split; [reflexivity |]. split; [reflexivity |].
  set (f1 := Math.radians lat1). set (l1 := Math.radians lon1).
  set (f2 := Math.radians lat2). set (l2 := Math.radians lon2).
  set (f3 := Math.radians lat3). set (l3 := Math.radians lon3).
  assert (H : 2 * asin (sqrt (haversine_a f1 l1 f3 l3))
              <= 2 * asin (sqrt (haversine_a f1 l1 f2 l2))
                 + 2 * asin (sqrt (haversine_a f2 l2 f3 l3))); [| lra].
  apply angle_triangle; try apply central_angle_bounds.
  rewrite !central_angle_dot.
  apply gram_unit_nonneg; apply unit_vector_norm.
Qed.

(** ** Further properties of distance_and_time *)

(** The value [distance_and_time] returns at a positive speed. *)
Lemma distance_and_time_value (lat1 lon1 lat2 lon2 speed_kmh : R) :
  0 < speed_kmh ->
  distance_and_time lat1 lon1 lat2 lon2 speed_kmh
  = Ok (2 * asin (sqrt (haversine_a (Math.radians lat1) (Math.radians lon1)
                          (Math.radians lat2) (Math.radians lon2))) * 6371,
        2 * asin (sqrt (haversine_a (Math.radians lat1) (Math.radians lon1)
                          (Math.radians lat2) (Math.radians lon2))) * 6371
        / speed_kmh * 3600).
Proof.
  intros Hs. unfold distance_and_time.
  rewrite haversine_value. cbn [bind].
  rewrite travel_time_s_pos by exact Hs. reflexivity.
Qed.

(** One degree of longitude on the equator, as a trip. *)
Example distance_and_time_equator_degree (speed_kmh : R) :
  0 < speed_kmh ->
  distance_and_time 0 0 0 1 speed_kmh
  = Ok (PI / 180 * 6371, PI / 180 * 6371 / speed_kmh * 3600).
Proof.
  intros Hs. unfold distance_and_time.
  rewrite (proj1 haversine_equator_degree). cbn [bind].
  rewrite travel_time_s_pos by exact Hs. reflexivity.
Qed.

(** X14: over exact real arithmetic, a pair that [distance_and_time]
    returns is consistent and bounded: the speed was positive, the time
    multiplied by the speed is 3600 times the distance, the distance is
    between 0 and PI * 6371, and the time is between 0 and the time of half
    the circumference, PI * 6371 * 3600 / speed_kmh. *)
Theorem distance_and_time_consistent
  (lat1 lon1 lat2 lon2 speed_kmh dist_km time_s : R) :
  distance_and_time lat1 lon1 lat2 lon2 speed_kmh = Ok (dist_km, time_s) ->
  0 < speed_kmh
  /\ time_s * speed_kmh = 3600 * dist_km
  /\ 0 <= dist_km <= PI * 6371
  /\ 0 <= time_s <= PI * 6371 * 3600 / speed_kmh.
Proof.
  intros H. apply distance_and_time_inv in H. destruct H as [Hd [Hs ->]].
  apply haversine_result_bounds in Hd.
  assert (Hinv : 0 < / speed_kmh) by (apply Rinv_0_lt_compat, Hs).
  split; [exact Hs |]. split; [field; lra |]. split; [exact Hd |].
  unfold Rdiv. split.
  - apply Rmult_le_pos; [apply Rmult_le_pos |]; lra.
  - apply Rmult_le_reg_r with (r := speed_kmh); [exact Hs |].
    replace (dist_km * / speed_kmh * 3600 * speed_kmh)
      with (dist_km * 3600) by (field; lra).
    replace (PI * 6371 * 3600 * / speed_kmh * speed_kmh)
      with (PI * 6371 * 3600) by (field; lra).
    lra.
Qed.

Lemma distance_and_time_consistent_witness :
  0 < 90
  /\ PI / 180 * 6371 / 90 * 3600 * 90 = 3600 * (PI / 180 * 6371)
  /\ 0 <= PI / 180 * 6371 <= PI * 6371
  /\ 0 <= PI / 180 * 6371 / 90 * 3600 <= PI * 6371 * 3600 / 90.
Proof.
  apply (distance_and_time_consistent 0 0 0 1 90).
  apply distance_and_time_equator_degree. lra.
Defined.

(** X15: exchanging the two points does not change the result of
    [distance_and_time], whatever the speed: the same pair, or the same
    exception. *)
Theorem distance_and_time_symmetric (lat1 lon1 lat2 lon2 speed_kmh : R) :
  distance_and_time lat1 lon1 lat2 lon2 speed_kmh
  = distance_and_time lat2 lon2 lat1 lon1 speed_kmh.
Proof.
  unfold distance_and_time. rewrite !haversine_value.
  rewrite (haversine_a_sym (Math.radians lat1) (Math.radians lon1)
             (Math.radians lat2) (Math.radians lon2)).
  reflexivity.
Qed.

(** X16: a trip from a point to itself has distance 0 and takes no time at
    any positive speed. *)
Theorem distance_and_time_same_point (lat lon speed_kmh : R) :
  0 < speed_kmh ->
  distance_and_time lat lon lat lon speed_kmh = Ok (0, 0).
Proof.
  intros Hs. rewrite distance_and_time_value by exact Hs.
  rewrite haversine_a_same, sqrt_0, asin_0.
  do 2 f_equal; field; lra.
Qed.

Lemma distance_and_time_same_point_witness :
  distance_and_time 12 (-34) 12 (-34) 80 = Ok (0, 0).
Proof.
  apply (distance_and_time_same_point 12 (-34) 80). lra.
Defined.

(** X17: on the same trip a higher speed never takes longer: when
    [distance_and_time] returns for the same two points at two speeds in
    order, the two distances are equal and the time at the higher speed is
    at most the time at the lower one. *)
Theorem distance_and_time_faster_sooner
  (lat1 lon1 lat2 lon2 s1 s2 d1 t1 d2 t2 : R) :
  s1 <= s2 ->
  distance_and_time lat1 lon1 lat2 lon2 s1 = Ok (d1, t1) ->
  distance_and_time lat1 lon1 lat2 lon2 s2 = Ok (d2, t2) ->
  d1 = d2 /\ t2 <= t1.
Proof.
  intros H12 R1 R2.
  apply distance_and_time_inv in R1. destruct R1 as [Hd1 [Hs1 ->]].
  apply distance_and_time_inv in R2. destruct R2 as [Hd2 [Hs2 ->]].
  rewrite Hd1 in Hd2. injection Hd2 as <-.
  split; [reflexivity |].
  apply haversine_result_bounds in Hd1. destruct Hd1 as [Hd _].
  assert (Hinv : / s2 <= / s1) by (apply Rinv_le_contravar; assumption).
  unfold Rdiv. nra.
Qed.

Lemma distance_and_time_faster_sooner_witness :
  PI / 180 * 6371 = PI / 180 * 6371
  /\ PI / 180 * 6371 / 90 * 3600 <= PI / 180 * 6371 / 60 * 3600.
Proof.
  apply (distance_and_time_faster_sooner 0 0 0 1 60 90).
  - lra.
  - apply distance_and_time_equator_degree. lra.
  - apply distance_and_time_equator_degree. lra.
Defined.

(** ** Distances to the antipode *)

(** X18: over exact real arithmetic the distances from a point to another
    point and to the antipode of that other point add up to PI * 6371, half
    the circumference. *)
Theorem haversine_antipode_complement (lat1 lon1 lat2 lon2 : R) :
  exists d d',
    haversine lat1 lon1 lat2 lon2 = Ok d
    /\ haversine lat1 lon1 (- lat2) (lon2 + 180) = Ok d'
    /\ d + d' = PI * 6371.
Proof.
  do 2 eexists. rewrite !haversine_value.
  split; [reflexivity |]. split; [reflexivity |].
  replace (Math.radians (- lat2)) with (- Math.radians lat2)
    by (unfold Math.radians; ring).
  replace (Math.radians (lon2 + 180)) with (Math.radians lon2 + PI)
    by (unfold Math.radians; field).
  set (f1 := Math.radians lat1). set (l1 := Math.radians lon1).
  set (f2 := Math.radians lat2). set (l2 := Math.radians lon2).
  pose proof (central_angle_bounds f1 l1 f2 l2) as Hc.
  pose proof (central_angle_bounds f1 l1 (- f2) (l2 + PI)) as Hc'.
  assert (Hcos : cos (2 * asin (sqrt (haversine_a f1 l1 (- f2) (l2 + PI))))
                 = cos (PI - 2 * asin (sqrt (haversine_a f1 l1 f2 l2)))).
  { rewrite cos_minus, cos_PI, sin_PI, !central_angle_dot.
    rewrite cos_neg, sin_neg, neg_cos, neg_sin. ring. }
  set (c := 2 * asin (sqrt (haversine_a f1 l1 f2 l2))) in *.
  set (c' := 2 * asin (sqrt (haversine_a f1 l1 (- f2) (l2 + PI)))) in *.
  assert (Heq : c' = PI - c).
  { apply Rle_antisym; apply cos_decr_0; lra. }
  lra.
Qed.
